(** * Authentication routes of the ChiselStrike server (server/src/auth.rs)

    Shallow embedding of the OAuth callback handler, the token lookup
    handler, the id-by-username query and the credential extractor.
    The collaborators the handlers call through the runtime (the type
    registry, the query engine and the session store) are parameters of
    a Section: every theorem holds for any implementation of them.
    Each collaborator call goes through a small state monad that threads
    the collaborators' state and records the call and its outcome in a
    log, so the order of the effects can be read off the log.  The
    callback and the id lookup can also panic (in [urldecode::decode], in
    the [unwrap] of the redirect's builder and of [Row::get]); they run in
    a monad whose outcome is a returned [Result] or a panic.  The URL
    decoder is a pure function of a crate and is modelled concretely. *)

From Stdlib Require Import String Ascii List ZArith Bool Lia.
From Stdlib Require Import Init.Byte Strings.Byte.
Import ListNotations.
Open Scope string_scope.

(** ** Strings as Rust's [str] methods see them *)

(** [str::strip_prefix] *)
Fixpoint strip_prefix (p s : string) : option string :=
  match p, s with
  | EmptyString, _ => Some s
  | String a p', String b s' => if Ascii.eqb a b then strip_prefix p' s' else None
  | String _ _, EmptyString => None
  end.

(** [str::is_empty] *)
Definition is_empty (s : string) : bool :=
  match s with EmptyString => true | _ => false end.

(** [str::starts_with] *)
Fixpoint starts_with (s p : string) : bool :=
  match p, s with
  | EmptyString, _ => true
  | String a p', String b s' => Ascii.eqb a b && starts_with s' p'
  | String _ _, EmptyString => false
  end.

(** [str::contains] for a string pattern *)
Fixpoint contains (hay needle : string) : bool :=
  starts_with hay needle ||
  match hay with
  | EmptyString => false
  | String _ hay' => contains hay' needle
  end.

(** ASCII lower-casing, as [HeaderName] parsing does to a [&str] key *)
Definition ascii_to_lower (c : ascii) : ascii :=
  let n := nat_of_ascii c in
  if ((65 <=? n) && (n <=? 90))%nat then ascii_of_nat (n + 32)%nat else c.

Fixpoint to_lower (s : string) : string :=
  match s with
  | EmptyString => EmptyString
  | String c s' => String (ascii_to_lower c) (to_lower s')
  end.

(** ** Errors and results *)

(** [anyhow::Error], identified by its message *)
Inductive Error : Type :=
| Anyhow (msg : string).

(** [anyhow::Result<A>] *)
Inductive Result (A : Type) : Type :=
| Ok (a : A)
| Err (e : Error).
Arguments Ok {A} a.
Arguments Err {A} e.

(** How a Rust computation that returns [anyhow::Result<A>] ends: it
    returns, or it panics (a panic unwinds past every [?]) *)
Inductive Outcome (A : Type) : Type :=
| Returned (r : Result A)
| Panicked.
Arguments Returned {A} r.
Arguments Panicked {A}.

(** ** HTTP data (hyper) *)

(** [http::HeaderValue]: the raw bytes of a header value *)
Definition HeaderValue := list byte.

(** [http::header::value::is_visible_ascii] *)
Definition is_visible_ascii (b : byte) : bool :=
  let n := Byte.to_nat b in (((32 <=? n) && (n <? 127)) || (n =? 9))%nat.

(** [HeaderValue::to_str], with its [ToStrError] turned into an
    [anyhow::Error] by [?] *)
Definition to_str (v : HeaderValue) : Result string :=
  if forallb is_visible_ascii v then Ok (string_of_list_byte v)
  else Err (Anyhow "failed to convert header to a str").

(** A request: the path and the optional query of its URI, and its
    header map; header names are stored lower-case, as [HeaderName]s are. *)
Record Request : Type := mkRequest {
  uri_path : string;
  uri_query : option string;
  req_headers : list (string * HeaderValue)
}.

(** [HeaderMap::get] with a [&str] key: the first value under that name *)
Definition headers_get (key : string) (hs : list (string * HeaderValue))
  : option HeaderValue :=
  option_map snd (find (fun nv => String.eqb (fst nv) (to_lower key)) hs).

Definition TEMPORARY_REDIRECT : N := 307.
Definition BAD_REQUEST : N := 400.
Definition OK : N := 200.

Record Response : Type := mkResponse {
  status : N;
  resp_headers : list (string * string);
  body : string
}.

Definition LOCATION := "location".

(** [http::header::value::is_valid]: the bytes a [HeaderValue] built from
    a [&str] may hold *)
Definition is_valid_header_byte (b : byte) : bool :=
  let n := Byte.to_nat b in (((32 <=? n) && negb (n =? 127)) || (n =? 9))%nat.

(** [redirect]; [None] is the panic of [.unwrap()] when the builder kept
    the error of a Location value that is not a valid header value *)
Definition redirect (link : string) : option Response :=
  if forallb is_valid_header_byte (list_byte_of_string link) then
    Some {| status := TEMPORARY_REDIRECT;
            resp_headers := [(LOCATION, link)];
            body := "Redirecting to <a href='" ++ link ++ "'>" ++ link ++ "</a>" ++
                    String (ascii_of_nat 10) EmptyString |}
  else None.

(** [bad_request] *)
Definition bad_request (msg : string) : Response :=
  {| status := BAD_REQUEST;
     resp_headers := [];
     body := msg ++ String (ascii_of_nat 10) EmptyString |}.

(** ** Types, JSON rows and SQL values *)

(** [types::ObjectType], reduced to what the handlers read *)
Record ObjectType : Type := mkObjectType {
  ot_name : string;
  ot_fields : list string;
  ot_backing_table : string
}.

(** [ObjectType::backing_table] *)
Definition backing_table (t : ObjectType) : string := ot_backing_table t.

(** [types::Type] *)
Inductive Ty : Type :=
| TyString
| TyFloat
| TyBoolean
| TyId
| TyObject (t : ObjectType).

Definition OAUTHUSER_TYPE_NAME := "OAuthUser".

(** [serde_json::Value], scalar values (numbers as integers) *)
Inductive Json : Type :=
| JNull
| JBool (b : bool)
| JNumber (z : Z)
| JString (s : string).

(** [query::engine::JsonObject]: a map from field name to value *)
Definition JsonObject := list (string * Json).

(** [db::SqlValue]: the scalar kinds bound as statement arguments
    (floating-point values are left out of this model) *)
Inductive SqlValue : Type :=
| SqlString (s : string)
| SqlInteger (z : Z)
| SqlBoolean (b : bool)
| SqlNull
| SqlBlob (bs : list byte).

(** [query::engine::SqlWithArguments] *)
Record SqlWithArguments : Type := mkSql {
  sql : string;
  args : list SqlValue
}.

(** ** Calls to the collaborators, as recorded in the log *)

Inductive Event : Type :=
| EvAddRow (t : ObjectType) (row : JsonObject) (r : Result unit)
| EvFetchOne (q : SqlWithArguments)
| EvNewSessionToken (username : string) (r : Result string)
| EvGetUsername (token : string) (r : Result string).

(** ** [urldecode::decode] (crate urldecode 0.1.1)

    The decoder loops over the byte indices [0..url.len()] but reads the
    characters with [url.chars().nth(i).unwrap()].  On a [%] it reads the
    next two characters with [unwrap] and parses them with
    [u8::from_str_radix(_, 16).unwrap()], appends [(byte as char)] and
    skips two indices; any other character is copied.  [+] is copied as
    is.  [None] stands for a panic. *)

(** [char::to_digit(16)] *)
Definition hex_digit (c : ascii) : option nat :=
  let n := nat_of_ascii c in
  if ((48 <=? n) && (n <=? 57))%nat then Some (n - 48)%nat
  else if ((97 <=? n) && (n <=? 102))%nat then Some (n - 87)%nat
  else if ((65 <=? n) && (n <=? 70))%nat then Some (n - 55)%nat
  else None.

(** [u8::from_str_radix(&format!("{}{}", left, right), 16)]: an unsigned
    parse accepts a leading [+] *)
Definition byte_of_hex_pair (left' right' : ascii) : option nat :=
  if Ascii.eqb left' "+"%char then hex_digit right'
  else match hex_digit left', hex_digit right' with
       | Some h, Some l => Some (16 * h + l)%nat
       | _, _ => None
       end.

(** [(byte as char).to_string()]: the code point U+0000..U+00FF in UTF-8 *)
Definition utf8_of_latin1 (n : nat) : string :=
  if (n <? 128)%nat then String (ascii_of_nat n) EmptyString
  else String (ascii_of_nat (192 + n / 64)) (String (ascii_of_nat (128 + n mod 64)) EmptyString).

(** The loop on a string of ASCII characters, where byte and character
    indices coincide *)
Fixpoint decode_ascii (s : string) : option string :=
  match s with
  | EmptyString => Some EmptyString
  | String c rest =>
      if Ascii.eqb c "%"%char then
        match rest with
        | String left' (String right' rest') =>
            match byte_of_hex_pair left' right' with
            | Some b => option_map (append (utf8_of_latin1 b)) (decode_ascii rest')
            | None => None
            end
        | _ => None
        end
      else option_map (String c) (decode_ascii rest)
  end.

(** [decode]: a (UTF-8) string with a byte outside ASCII holds a
    multi-byte character, so it has fewer characters than bytes and the
    loop panics when [nth] runs past the last character (an index it
    cannot skip, since a [%] there panics already). *)
Definition decode (url : string) : option string :=
  if forallb (fun c => (nat_of_ascii c <? 128)%nat) (list_ascii_of_string url)
  then decode_ascii url
  else None.

(** ** A concrete runtime

    Modelled from the spec: the query engine and the session store of the
    runtime (crate::query and crate::runtime's meta service, not under
    src/).  The registry holds the built-in user type; [add_row] appends
    the row to the type's backing table after checking that its keys are
    declared fields; a session token is minted from a counter and bound
    to its username; resolving an unknown token fails. *)
Record World : Type := mkWorld {
  tables : list (string * JsonObject);
  sessions : list (string * string);
  next_token : nat
}.

Definition oauth_user : ObjectType :=
  {| ot_name := OAUTHUSER_TYPE_NAME;
     ot_fields := ["id"; "username"];
     ot_backing_table := "auth_user" |}.

Definition model_lookup_builtin_type (name : string) : Result Ty :=
  if String.eqb name OAUTHUSER_TYPE_NAME then Ok (TyObject oauth_user)
  else Err (Anyhow ("type " ++ name ++ " not found")).

Definition model_add_row (t : ObjectType) (row : JsonObject) (w : World)
  : Result unit * World :=
  if forallb (fun kv => existsb (String.eqb (fst kv)) (ot_fields t)) row
  then (Ok tt, {| tables := tables w ++ [(backing_table t, row)];
                  sessions := sessions w; next_token := next_token w |})
  else (Err (Anyhow "schema mismatch"), w).

(** The decimal digits of a number *)
Fixpoint string_of_uint (d : Decimal.uint) : string :=
  match d with
  | Decimal.Nil => EmptyString
  | Decimal.D0 d => String "0" (string_of_uint d)
  | Decimal.D1 d => String "1" (string_of_uint d)
  | Decimal.D2 d => String "2" (string_of_uint d)
  | Decimal.D3 d => String "3" (string_of_uint d)
  | Decimal.D4 d => String "4" (string_of_uint d)
  | Decimal.D5 d => String "5" (string_of_uint d)
  | Decimal.D6 d => String "6" (string_of_uint d)
  | Decimal.D7 d => String "7" (string_of_uint d)
  | Decimal.D8 d => String "8" (string_of_uint d)
  | Decimal.D9 d => String "9" (string_of_uint d)
  end.

(** Tokens are "tok" followed by the decimal value of a counter that only
    grows, so no token is minted twice *)
Definition token_of_nat (n : nat) : string :=
  "tok" ++ string_of_uint (Nat.to_uint n).

Definition model_new_session_token (u : string) (w : World) : Result string * World :=
  let tok := token_of_nat (next_token w) in
  (Ok tok, {| tables := tables w; sessions := sessions w ++ [(tok, u)];
              next_token := S (next_token w) |}).

Definition model_get_username (tok : string) (w : World) : Result string * World :=
  match find (fun p => String.eqb (fst p) tok) (sessions w) with
  | Some (_, u) => (Ok u, w)
  | None => (Err (Anyhow "token not found"), w)
  end.

(** [fetch_one] on a database with no user rows: every SELECT finds no
    row, which the spec's [fetch_one] reports as [NotFound] *)
Definition empty_fetch_one (q : SqlWithArguments) (w : World)
  : Result JsonObject * World :=
  (Err (Anyhow "NotFound: no rows returned"), w).

(** [Row::get::<String>]: the column's string value; [None] is the panic
    for a missing column or a value that is not a string *)
Definition json_row_get (row : JsonObject) (key : string) : option string :=
  match find (fun kv => String.eqb (fst kv) key) row with
  | Some (_, JString v) => Some v
  | _ => None
  end.

Section Auth.

(** State of the query engine's database and of the session store *)
Variable W : Type.
(** [TypeSystem::lookup_builtin_type] *)
Variable lookup_builtin_type : string -> Result Ty.
(** [QueryEngine::add_row] *)
Variable add_row : ObjectType -> JsonObject -> W -> Result unit * W.
(** [QueryEngine::fetch_one] and [Row::get] *)
Variable Row : Type.
Variable fetch_one : SqlWithArguments -> W -> Result Row * W.
(** [None]: the panic of [.unwrap()] on a missing or ill-typed column *)
Variable row_get : Row -> string -> option string.
(** [MetaService::new_session_token] and [MetaService::get_username] *)
Variable new_session_token : string -> W -> Result string * W.
Variable meta_get_username : string -> W -> Result string * W.

Record St : Type := mkSt { world : W; log : list Event }.

Definition M (A : Type) : Type := St -> Result A * St.

Definition ret {A} (a : A) : M A := fun s => (Ok a, s).

(** [?]: an error ends the computation *)
Definition bind {A B} (m : M A) (k : A -> M B) : M B :=
  fun s => match m s with
           | (Ok a, s') => k a s'
           | (Err e, s') => (Err e, s')
           end.

Definition lift {A} (r : Result A) : M A := fun s => (r, s).

(** [Result::ok]: an error becomes [None] *)
Definition ok_ {A} (m : M A) : M (option A) :=
  fun s => match m s with
           | (Ok a, s') => (Ok (Some a), s')
           | (Err _, s') => (Ok None, s')
           end.

(** Computations that may also panic *)
Definition PM (A : Type) : Type := St -> Outcome A * St.

Definition pret {A} (a : A) : PM A := fun s => (Returned (Ok a), s).

(** [?] and unwinding: an error or a panic ends the computation *)
Definition pbind {A B} (m : PM A) (k : A -> PM B) : PM B :=
  fun s => match m s with
           | (Returned (Ok a), s') => k a s'
           | (Returned (Err e), s') => (Returned (Err e), s')
           | (Panicked, s') => (Panicked, s')
           end.

(** A computation that does not panic *)
Definition run {A} (m : M A) : PM A :=
  fun s => let (r, s') := m s in (Returned r, s').

(** [Option::unwrap] on a value computed by pure code *)
Definition or_panic {A} (o : option A) : PM A :=
  fun s => match o with
           | Some a => (Returned (Ok a), s)
           | None => (Panicked, s)
           end.

Local Notation "x <- m ;; k" := (bind m (fun x => k))
  (at level 61, m at next level, right associativity).
Local Notation "m ;; k" := (bind m (fun _ => k))
  (at level 61, right associativity).

Definition call_add_row (t : ObjectType) (row : JsonObject) : M unit :=
  fun s => let (r, w') := add_row t row (world s) in
           (r, mkSt w' (log s ++ [EvAddRow t row r])).

Definition call_fetch_one (q : SqlWithArguments) : M Row :=
  fun s => let (r, w') := fetch_one q (world s) in
           (r, mkSt w' (log s ++ [EvFetchOne q])).

Definition call_new_session_token (u : string) : M string :=
  fun s => let (r, w') := new_session_token u (world s) in
           (r, mkSt w' (log s ++ [EvNewSessionToken u r])).

Definition call_get_username (tok : string) : M string :=
  fun s => let (r, w') := meta_get_username tok (world s) in
           (r, mkSt w' (log s ++ [EvGetUsername tok r])).

(** [get_oauth_user_type] *)
Definition get_oauth_user_type : Result ObjectType :=
  match lookup_builtin_type OAUTHUSER_TYPE_NAME with
  | Ok (TyObject t) => Ok t
  | _ => Err (Anyhow ("Internal error: type " ++ OAUTHUSER_TYPE_NAME ++ " not found"))
  end.

(** The row built by [insert_user_into_db] *)
Definition user_row (username : string) : JsonObject :=
  [("username", JString username)].

(** [insert_user_into_db] *)
Definition insert_user_into_db (username : string) : M unit :=
  oauth_user_type <- lift get_oauth_user_type ;;
  call_add_row oauth_user_type (user_row username) ;;
  ret tt.

(** The statement built by [get_userid_from_db] *)
Definition userid_query (t : ObjectType) (username : string) : SqlWithArguments :=
  {| sql := "SELECT id FROM " ++ backing_table t ++ " WHERE username=$1";
     args := [SqlString username] |}.

(** [get_userid_from_db] *)
Definition get_userid_from_db (username : string) : PM string :=
  pbind (run (oauth_user_type <- lift get_oauth_user_type ;;
              call_fetch_one (userid_query oauth_user_type username)))
        (fun row => or_panic (row_get row "id")).

Definition PROFILE_URL := "http://localhost:3000/profile?chiselstrike_token=".

(** [handle_callback] *)
Definition handle_callback (req : Request) : PM Response :=
  match uri_query req with
  | None => pret (bad_request "Callback error: parameter missing")
  | Some params =>
      match strip_prefix "user=" params with
      | None => pret (bad_request "Callback error: parameter value missing")
      | Some username =>
          if is_empty username
          then pret (bad_request "Callback error: parameter value empty")
          else
            pbind (or_panic (decode username)) (fun username =>
            pbind (run (insert_user_into_db username)) (fun _ =>
            pbind (run (call_new_session_token username)) (fun tok =>
            or_panic (redirect (PROFILE_URL ++ tok)))))
      end
  end.

Definition USERPATH := "/__chiselstrike/auth/user/".

(** [Option::ok_or_else] *)
Definition ok_or {A} (o : option A) (e : Error) : Result A :=
  match o with Some a => Ok a | None => Err e end.

(** [lookup_user] *)
Definition lookup_user (req : Request) : M Response :=
  token <- lift (ok_or (strip_prefix USERPATH (uri_path req))
                       (Anyhow "lookup_user on wrong URL")) ;;
  u <- call_get_username token ;;
  ret {| status := OK; resp_headers := []; body := u |}.

(** [get_username], the credential extractor *)
Definition get_username (req : Request) : M (option string) :=
  match headers_get "ChiselStrikeToken" (req_headers req) with
  | Some token =>
      tok <- lift (to_str token) ;;
      ok_ (call_get_username tok)
  | None => ret None
  end.

(** ** Properties *)

Lemma strip_prefix_app p r : strip_prefix p (p ++ r) = Some r.
Proof. induction p as [|c p IH]; simpl; [reflexivity|now rewrite Ascii.eqb_refl]. Qed.

Lemma is_empty_false r : r <> EmptyString -> is_empty r = false.
Proof. destruct r; [congruence|reflexivity]. Qed.

Lemma list_byte_of_string_app (a b : string) :
  list_byte_of_string (a ++ b) = (list_byte_of_string a ++ list_byte_of_string b)%list.
Proof.
  unfold list_byte_of_string.
  induction a as [|c a IH]; simpl; [reflexivity|now rewrite IH].
Qed.

(** The fixed part of the profile URL is a valid header value, so the
    redirect's [unwrap] panics only on a token that is not one. *)
Lemma redirect_profile_url (tok : string) :
  forallb is_valid_header_byte (list_byte_of_string tok) = true ->
  redirect (PROFILE_URL ++ tok) =
    Some {| status := TEMPORARY_REDIRECT;
            resp_headers := [(LOCATION, PROFILE_URL ++ tok)];
            body := "Redirecting to <a href='" ++ (PROFILE_URL ++ tok) ++ "'>" ++
                    (PROFILE_URL ++ tok) ++ "</a>" ++
                    String (ascii_of_nat 10) EmptyString |}.
Proof.
  intros Hv. unfold redirect.
  rewrite list_byte_of_string_app, forallb_app, Hv. reflexivity.
Qed.

(** C7: with no query string at all the callback answers 400 with a body
    containing "parameter missing"; the state (database, sessions, log of
    calls) is left unchanged, so nothing is inserted and no token minted. *)
Theorem callback_no_query_rejected (req : Request) (s : St) :
  uri_query req = None ->
  exists resp, handle_callback req s = (Returned (Ok resp), s) /\
    status resp = BAD_REQUEST /\ contains (body resp) "parameter missing" = true.
Proof.
  intros H. unfold handle_callback. rewrite H.
  eexists; split; [reflexivity|]. split; reflexivity.
Qed.

(** C8: with the query string exactly "user=" the callback answers 400
    with a body containing "value empty" and leaves the state unchanged. *)
Theorem callback_empty_value_rejected (req : Request) (s : St) :
  uri_query req = Some "user=" ->
  exists resp, handle_callback req s = (Returned (Ok resp), s) /\
    status resp = BAD_REQUEST /\ contains (body resp) "value empty" = true.
Proof.
  intros H. unfold handle_callback. rewrite H. simpl.
  eexists; split; [reflexivity|]. split; reflexivity.
Qed.

(** C2 (amended): with a present but empty query string the prefix "user="
    is missing, so the callback answers 400 with the body
    "Callback error: parameter value missing" and leaves the state
    unchanged. *)
Theorem callback_empty_query_value_missing (req : Request) (s : St) :
  uri_query req = Some EmptyString ->
  handle_callback req s =
    (Returned (Ok (bad_request "Callback error: parameter value missing")), s) /\
  status (bad_request "Callback error: parameter value missing") = BAD_REQUEST /\
  contains (body (bad_request "Callback error: parameter value missing"))
           "parameter value missing" = true.
Proof.
  intros H. unfold handle_callback. rewrite H. simpl.
  split; [reflexivity|]. split; reflexivity.
Qed.

(** C1 (amended): when the query string is "user=" followed by a non-empty
    remainder r that the decoder accepts (decoding it to u), and the
    registry, the insert and the minting succeed with a token that is a
    valid header value, the callback first adds the row {username: u} to
    the built-in user type, then mints a token for u (in the state the
    insert left), and answers a 307 redirect whose Location is the fixed
    profile URL carrying the token as chiselstrike_token. *)
Theorem callback_inserts_mints_redirects (req : Request) (s : St) (r u : string)
    (t : ObjectType) (w1 w2 : W) (tok : string) :
  uri_query req = Some ("user=" ++ r) ->
  r <> EmptyString ->
  decode r = Some u ->
  lookup_builtin_type OAUTHUSER_TYPE_NAME = Ok (TyObject t) ->
  add_row t (user_row u) (world s) = (Ok tt, w1) ->
  new_session_token u w1 = (Ok tok, w2) ->
  forallb is_valid_header_byte (list_byte_of_string tok) = true ->
  exists resp,
    handle_callback req s =
      (Returned (Ok resp),
       mkSt w2 (log s ++ [EvAddRow t (user_row u) (Ok tt);
                          EvNewSessionToken u (Ok tok)])%list) /\
    status resp = TEMPORARY_REDIRECT /\
    resp_headers resp =
      [(LOCATION, "http://localhost:3000/profile?chiselstrike_token=" ++ tok)].
Proof.
  intros Hq Hr Hd Ht Hadd Htok Hv.
  unfold handle_callback. rewrite Hq, strip_prefix_app, (is_empty_false r Hr).
  unfold pbind at 1, or_panic at 1. rewrite Hd.
  unfold pbind at 1, run at 1, insert_user_into_db, get_oauth_user_type, bind, lift,
    call_add_row, ret.
  rewrite Ht. cbn [world]. rewrite Hadd.
  unfold pbind, run, call_new_session_token. cbn [world log]. rewrite Htok.
  unfold or_panic. rewrite (redirect_profile_url tok Hv).
  eexists; split; [rewrite <- app_assoc; reflexivity|split; reflexivity].
Qed.

(** C5: every run of the callback makes one of three sequences of calls:
    none; a single insert that failed, whose error is then the handler's
    result; or an insert that succeeded followed by one token minting.
    So a failed insert is terminal (no token, no redirect) and a token is
    minted only after a successful insert. *)
Theorem callback_calls_in_order (req : Request) (s : St) :
  exists ext,
    log (snd (handle_callback req s)) = (log s ++ ext)%list /\
    (ext = [] \/
     (exists t row e, ext = [EvAddRow t row (Err e)] /\
                      fst (handle_callback req s) = Returned (Err e)) \/
     (exists t row u r, ext = [EvAddRow t row (Ok tt); EvNewSessionToken u r])).
Proof.
  unfold handle_callback, pbind, run, or_panic, pret, insert_user_into_db,
    get_oauth_user_type, bind, lift, call_add_row, call_new_session_token, ret.
  destruct (uri_query req) as [params|];
    [|exists []; simpl; rewrite app_nil_r; auto].
  destruct (strip_prefix "user=" params) as [username|];
    [|exists []; simpl; rewrite app_nil_r; auto].
  destruct (is_empty username);
    [exists []; simpl; rewrite app_nil_r; auto|].
  destruct (decode username) as [u|]; [|exists []; simpl; rewrite app_nil_r; auto].
  destruct (lookup_builtin_type OAUTHUSER_TYPE_NAME) as [[| | | |t]|e];
    try (exists []; simpl; rewrite app_nil_r; auto; fail).
  destruct (add_row t (user_row u) (world s)) as [[[]|e] w1]; simpl.
  - destruct (new_session_token u w1) as [rt w2].
    exists [EvAddRow t (user_row u) (Ok tt); EvNewSessionToken u rt].
    split; [|right; right; eauto].
    destruct rt as [a|e]; simpl;
      [match goal with |- context [match redirect ?l with _ => _ end] =>
         destruct (redirect l) end|];
      simpl; rewrite <- app_assoc; reflexivity.
  - exists [EvAddRow t (user_row u) (Err e)].
    split; [reflexivity|]. right; left; eauto.
Qed.

(** C3: the credential extractor returns [None] when the ChiselStrikeToken
    header is absent; when the header's value reads as the token string
    tok, it returns [Some u] if the session store resolves tok to u and
    [None] (not an error) if resolution fails. *)
Theorem extractor_resolves_or_anonymous (req : Request) (s : St) :
  (headers_get "ChiselStrikeToken" (req_headers req) = None ->
   get_username req s = (Ok None, s)) /\
  (forall v tok u w',
   headers_get "ChiselStrikeToken" (req_headers req) = Some v ->
   to_str v = Ok tok ->
   meta_get_username tok (world s) = (Ok u, w') ->
   fst (get_username req s) = Ok (Some u)) /\
  (forall v tok e w',
   headers_get "ChiselStrikeToken" (req_headers req) = Some v ->
   to_str v = Ok tok ->
   meta_get_username tok (world s) = (Err e, w') ->
   fst (get_username req s) = Ok None).
Proof.
  unfold get_username.
  split; [intros H; rewrite H; reflexivity|].
  split; intros v tok x w' Hh Hv Hm; rewrite Hh;
    unfold bind, lift, ok_, call_get_username; rewrite Hv, Hm; reflexivity.
Qed.

(** C9: when the ChiselStrikeToken header is present, the extractor fails
    exactly when the header value is not visible ASCII; it then fails with
    the conversion error without calling the session store. *)
Theorem extractor_fails_only_on_non_ascii (req : Request) (s : St) (v : HeaderValue) :
  headers_get "ChiselStrikeToken" (req_headers req) = Some v ->
  ((exists e, fst (get_username req s) = Err e) <->
   forallb is_visible_ascii v = false) /\
  (forallb is_visible_ascii v = false ->
   get_username req s = (Err (Anyhow "failed to convert header to a str"), s)).
Proof.
  intros Hh. unfold get_username. rewrite Hh.
  unfold bind, lift, ok_, to_str.
  destruct (forallb is_visible_ascii v).
  - split; [|discriminate].
    split; [|discriminate]. intros [e He].
    unfold call_get_username in He.
    destruct (meta_get_username (string_of_list_byte v) (world s)) as [[]]; discriminate.
  - split; [|reflexivity]. split; [reflexivity|]. intros _. eexists; reflexivity.
Qed.

(** C4: the lookup handler fails with the error "lookup_user on wrong URL"
    (and no store call) when the path lacks the user prefix; otherwise it
    resolves the rest of the path as a token, answering 200 with the
    username as body, or propagating the store's failure. *)
Theorem lookup_user_strips_and_resolves (req : Request) (s : St) :
  (strip_prefix USERPATH (uri_path req) = None ->
   lookup_user req s = (Err (Anyhow "lookup_user on wrong URL"), s)) /\
  (forall tok u w',
   strip_prefix USERPATH (uri_path req) = Some tok ->
   meta_get_username tok (world s) = (Ok u, w') ->
   fst (lookup_user req s) = Ok {| status := OK; resp_headers := []; body := u |}) /\
  (forall tok e w',
   strip_prefix USERPATH (uri_path req) = Some tok ->
   meta_get_username tok (world s) = (Err e, w') ->
   fst (lookup_user req s) = Err e).
Proof.
  unfold lookup_user, bind, lift, ok_or, call_get_username, ret.
  split; [intros H; rewrite H; reflexivity|].
  split; intros tok x w' Hp Hm; rewrite Hp, Hm; reflexivity.
Qed.

(** C6: once the built-in user type t is found, looking up a user's id
    runs exactly one statement: the SQL text
    "SELECT id FROM <backing table of t> WHERE username=$1", which does not
    depend on the username, with the username as its single string
    argument. *)
Theorem userid_query_binds_username (t : ObjectType) :
  lookup_builtin_type OAUTHUSER_TYPE_NAME = Ok (TyObject t) ->
  forall (username : string) (s : St),
    log (snd (get_userid_from_db username s)) =
      (log s ++ [EvFetchOne {| sql := "SELECT id FROM " ++ backing_table t ++
                                      " WHERE username=$1";
                               args := [SqlString username] |}])%list.
Proof.
  intros Ht username s.
  unfold get_userid_from_db, pbind, run, or_panic, get_oauth_user_type, bind, lift,
    call_fetch_one.
  rewrite Ht. simpl.
  destruct (fetch_one (userid_query t username) (world s)) as [[row|e] w']; simpl;
    [destruct (row_get row "id")|]; reflexivity.
Qed.

(** C10: the query string is not split into parameters.  The row inserted
    for "user=" ++ r carries the decoding of the whole remainder r (so
    "user=a&other=b" inserts the decoding of "a&other=b"), and a query
    string that does not start with "user=" (such as "state=x&user=a")
    is answered with a 400 and changes nothing. *)
Theorem callback_query_not_split (s : St) (t : ObjectType) :
  lookup_builtin_type OAUTHUSER_TYPE_NAME = Ok (TyObject t) ->
  (forall req r u,
   uri_query req = Some ("user=" ++ r) -> r <> EmptyString -> decode r = Some u ->
   exists res ext,
     log (snd (handle_callback req s)) =
       (log s ++ EvAddRow t (user_row u) res :: ext)%list) /\
  (forall req q,
   uri_query req = Some q -> strip_prefix "user=" q = None ->
   exists resp, handle_callback req s = (Returned (Ok resp), s) /\
                status resp = BAD_REQUEST).
Proof.
  intros Ht. split.
  - intros req r u Hq Hr Hd.
    unfold handle_callback. rewrite Hq, strip_prefix_app, (is_empty_false r Hr).
    unfold pbind at 1, or_panic at 1. rewrite Hd.
    unfold pbind, run, insert_user_into_db, get_oauth_user_type, bind, lift,
      call_add_row, call_new_session_token, ret.
    rewrite Ht.
    destruct (add_row t (user_row u) (world s)) as [[[]|e] w1]; simpl.
    + destruct (new_session_token u w1) as [[tok|e] w2]; simpl;
        [unfold or_panic;
         match goal with |- context [match redirect ?l with _ => _ end] =>
           destruct (redirect l) end|]; simpl;
        rewrite <- app_assoc; eexists; eexists; reflexivity.
    + exists (Err e), []. reflexivity.
  - intros req q Hq Hp. unfold handle_callback. rewrite Hq, Hp.
    eexists; split; reflexivity.
Qed.

(** ** Further properties of the handlers *)

Lemma decode_ascii_plain (r : string) :
  forallb (fun c => negb (Ascii.eqb c "%"%char)) (list_ascii_of_string r) = true ->
  decode_ascii r = Some r.
Proof.
  induction r as [|c r IH]; simpl; [reflexivity|].
  intros H. apply andb_prop in H as [Hc H].
  destruct (Ascii.eqb c "%"%char); [discriminate|].
  rewrite (IH H). reflexivity.
Qed.

(** The username decoded from an ASCII remainder without [%] is the
    remainder itself: in particular [+] is not turned into a space. *)
Theorem decode_keeps_plain_text (r : string) :
  forallb (fun c => (nat_of_ascii c <? 128)%nat && negb (Ascii.eqb c "%"%char))
          (list_ascii_of_string r) = true ->
  decode r = Some r.
Proof.
  intros H. unfold decode.
  assert (forallb (fun c => (nat_of_ascii c <? 128)%nat) (list_ascii_of_string r) = true /\
          forallb (fun c => negb (Ascii.eqb c "%"%char)) (list_ascii_of_string r) = true)
    as [H1 H2].
  { induction r as [|c r IH]; simpl in *; [auto|].
    apply andb_prop in H as [Hc H]. apply andb_prop in Hc as [Ha Hp].
    destruct (IH H) as [H1 H2]. rewrite Ha, Hp, H1, H2. auto. }
  rewrite H1. apply decode_ascii_plain, H2.
Qed.

Lemma starts_with_strip (s p : string) :
  starts_with s p = true -> exists r, s = p ++ r.
Proof.
  revert s. induction p as [|c p IH]; intros s H; [now exists s|].
  destruct s as [|d s]; [discriminate|]. simpl in H.
  apply andb_prop in H as [Hc H]. apply Ascii.eqb_eq in Hc as ->.
  destruct (IH s H) as [r ->]. now exists r.
Qed.

(** Split a run of the callback along the branches of its code. *)
Ltac callback_branches :=
  unfold handle_callback, pbind, run, or_panic, insert_user_into_db,
    get_oauth_user_type, bind, lift, call_add_row, call_new_session_token, ret, pret;
  repeat match goal with
  | |- context [match uri_query ?q with _ => _ end] => destruct (uri_query q)
  | |- context [match strip_prefix ?p ?x with _ => _ end] => destruct (strip_prefix p x)
  | |- context [if is_empty ?x then _ else _] => destruct (is_empty x)
  | |- context [match decode ?x with _ => _ end] => destruct (decode x)
  | |- context [match lookup_builtin_type ?n with _ => _ end] =>
      destruct (lookup_builtin_type n) as [[| | | |?t]|?e]
  | |- context [let (_, _) := add_row ?t ?r ?w in _] =>
      destruct (add_row t r w) as [[[]|?e] ?w1]
  | |- context [let (_, _) := new_session_token ?u ?w in _] =>
      destruct (new_session_token u w) as [[?tok|?e] ?w2]
  | |- context [match redirect ?l with _ => _ end] => destruct (redirect l) eqn:?Hredir
  end; simpl.

(** Every successful answer of the callback is either a 400 that left the
    state (database, sessions, log) unchanged, or a 307 to the profile URL
    carrying a token, given after exactly one successful insert of a user
    row and one successful minting of that token for the same username. *)
Theorem callback_ok_answers (req : Request) (s s' : St) (resp : Response) :
  handle_callback req s = (Returned (Ok resp), s') ->
  (status resp = BAD_REQUEST /\ s' = s) \/
  (exists t u tok,
     status resp = TEMPORARY_REDIRECT /\
     resp_headers resp = [(LOCATION, PROFILE_URL ++ tok)] /\
     log s' = (log s ++ [EvAddRow t (user_row u) (Ok tt);
                         EvNewSessionToken u (Ok tok)])%list).
Proof.
  callback_branches; intros H; inversion H; subst; clear H;
    try (left; split; reflexivity).
  right. unfold redirect in Hredir.
  destruct (forallb is_valid_header_byte (list_byte_of_string (PROFILE_URL ++ tok)));
    inversion Hredir; subst; clear Hredir.
  do 3 eexists. split; [reflexivity|split; [reflexivity|]].
  simpl. rewrite <- app_assoc. reflexivity.
Qed.

(** The callback fails (rather than answering 400) only for internal
    reasons: the built-in user type is missing (nothing else happens), the
    insert failed (its error is returned), or the insert succeeded and
    minting the token failed (its error is returned). *)
Theorem callback_errors_internal (req : Request) (s s' : St) (e : Error) :
  handle_callback req s = (Returned (Err e), s') ->
  (e = Anyhow ("Internal error: type " ++ OAUTHUSER_TYPE_NAME ++ " not found") /\ s' = s) \/
  (exists t u, log s' = (log s ++ [EvAddRow t (user_row u) (Err e)])%list) \/
  (exists t u, log s' = (log s ++ [EvAddRow t (user_row u) (Ok tt);
                                   EvNewSessionToken u (Err e)])%list).
Proof.
  callback_branches; intros H; inversion H; subst; clear H;
    try (left; split; reflexivity).
  - right; right. do 2 eexists. simpl. rewrite <- app_assoc. reflexivity.
  - right; left. do 2 eexists. reflexivity.
Qed.

(** When the registry does not hold the built-in user type as an object
    type, a well-formed callback whose value the decoder accepts fails
    with the internal error and inserts nothing, mints nothing. *)
Theorem callback_without_user_type (req : Request) (s : St) (r : string) :
  uri_query req = Some ("user=" ++ r) ->
  r <> EmptyString ->
  decode r <> None ->
  (forall t, lookup_builtin_type OAUTHUSER_TYPE_NAME <> Ok (TyObject t)) ->
  handle_callback req s =
    (Returned (Err (Anyhow ("Internal error: type " ++ OAUTHUSER_TYPE_NAME ++ " not found"))), s).
Proof.
  intros Hq Hr Hd Ht.
  unfold handle_callback. rewrite Hq, strip_prefix_app, (is_empty_false r Hr).
  unfold pbind at 1, or_panic at 1.
  destruct (decode r) as [u|]; [|congruence].
  unfold pbind, run, insert_user_into_db, get_oauth_user_type, bind, lift.
  destruct (lookup_builtin_type OAUTHUSER_TYPE_NAME) as [[| | | |t]|e];
    try reflexivity.
  exfalso. exact (Ht t eq_refl).
Qed.

(** Any path under the user prefix (as the prefix route registered by
    [init] delivers) is never refused: its remainder is resolved as the
    token, in exactly one session-store call, and the answer is 200 with
    the username or the store's error. *)
Theorem lookup_user_prefix_paths (req : Request) (s : St) :
  starts_with (uri_path req) USERPATH = true ->
  exists tok,
    uri_path req = USERPATH ++ tok /\
    lookup_user req s =
      (match fst (meta_get_username tok (world s)) with
       | Ok u => Ok {| status := OK; resp_headers := []; body := u |}
       | Err e => Err e
       end,
       mkSt (snd (meta_get_username tok (world s)))
            (log s ++ [EvGetUsername tok (fst (meta_get_username tok (world s)))])%list).
Proof.
  intros H. destruct (starts_with_strip _ _ H) as [tok Hp]. exists tok.
  split; [exact Hp|].
  unfold lookup_user, bind, lift, ok_or, call_get_username, ret.
  rewrite Hp, strip_prefix_app.
  destruct (meta_get_username tok (world s)) as [[] w']; reflexivity.
Qed.

(** A token sent as the bytes of the ChiselStrikeToken header (visible
    ASCII) reaches the session store unchanged, in exactly one call, and
    the extractor answers with its outcome, a failure becoming [None]. *)
Theorem extractor_header_round_trip (req : Request) (s : St) (tok : string) :
  headers_get "ChiselStrikeToken" (req_headers req) = Some (list_byte_of_string tok) ->
  forallb is_visible_ascii (list_byte_of_string tok) = true ->
  get_username req s =
    (Ok (match fst (meta_get_username tok (world s)) with
         | Ok u => Some u
         | Err _ => None
         end),
     mkSt (snd (meta_get_username tok (world s)))
          (log s ++ [EvGetUsername tok (fst (meta_get_username tok (world s)))])%list).
Proof.
  intros Hh Hv. unfold get_username. rewrite Hh.
  unfold bind, lift, to_str, ok_, call_get_username. rewrite Hv.
  rewrite string_of_list_byte_of_string.
  destruct (meta_get_username tok (world s)) as [[] w']; reflexivity.
Qed.

End Auth.

(** ** The handlers on the concrete runtime *)

Definition w0 : World := {| tables := []; sessions := []; next_token := 0 |}.
Definition s0 : St World := {| world := w0; log := [] |}.

Definition callback_request (q : option string) : Request :=
  {| uri_path := "/__chiselstrike/auth/callback"; uri_query := q; req_headers := [] |}.

Definition token_request (v : HeaderValue) : Request :=
  {| uri_path := "/"; uri_query := None; req_headers := [("chiselstriketoken", v)] |}.

Definition path_request (p : string) : Request :=
  {| uri_path := p; uri_query := None; req_headers := [] |}.

(** The world after a successful callback for alice *)
Definition w_alice : World :=
  snd (model_new_session_token "alice"
         (snd (model_add_row oauth_user (user_row "alice") w0))).

Definition run_callback (req : Request) (s : St World) : Outcome Response * St World :=
  handle_callback World model_lookup_builtin_type model_add_row
    model_new_session_token req s.

(** On the concrete runtime, "user=al%69ce" stores the row for alice in
    the backing table of the user type, and the redirect's token resolves
    to alice. *)
Example callback_alice_round_trip :
  exists resp,
    redirect (PROFILE_URL ++ "tok0") = Some resp /\
    run_callback (callback_request (Some "user=al%69ce")) s0 =
      (Returned (Ok resp), mkSt World w_alice
         [EvAddRow oauth_user (user_row "alice") (Ok tt);
          EvNewSessionToken "alice" (Ok "tok0")]) /\
    tables w_alice = [("auth_user", [("username", JString "alice")])] /\
    fst (model_get_username "tok0" w_alice) = Ok "alice".
Proof. vm_compute. eexists; split; [reflexivity|]. auto. Qed.

(** The decoder keeps [+], reads [%XX] as the character U+00XX (so the
    UTF-8 escape of a non-ASCII letter comes out as two characters), and
    panics on an incomplete escape or a non-ASCII input. *)
Example decode_examples :
  decode "a+b%20c" = Some "a+b c" /\
  decode "%C3%A9" = Some (String (ascii_of_nat 195) (String (ascii_of_nat 131)
                            (String (ascii_of_nat 194) (String (ascii_of_nat 169) EmptyString)))) /\
  decode "%+9" = Some (String (ascii_of_nat 9) EmptyString) /\
  decode "%" = None /\ decode "%4" = None /\ decode "%zz" = None /\
  decode (String (ascii_of_nat 195) (String (ascii_of_nat 169) EmptyString)) = None.
Proof. vm_compute. repeat split. Qed.

Lemma callback_no_query_rejected_witness :
  uri_query (callback_request None) = None /\
  exists resp, run_callback (callback_request None) s0 = (Returned (Ok resp), s0) /\
    status resp = BAD_REQUEST /\ contains (body resp) "parameter missing" = true.
Proof.
  split; [reflexivity|].
  apply (callback_no_query_rejected World model_lookup_builtin_type model_add_row
           model_new_session_token (callback_request None) s0).
  reflexivity.
Defined.

Lemma callback_empty_value_rejected_witness :
  exists resp, run_callback (callback_request (Some "user=")) s0 = (Returned (Ok resp), s0) /\
    status resp = BAD_REQUEST /\ contains (body resp) "value empty" = true.
Proof.
  apply (callback_empty_value_rejected World model_lookup_builtin_type model_add_row
           model_new_session_token (callback_request (Some "user=")) s0).
  reflexivity.
Defined.

(** C2 fails: a present but empty query string is answered 400 with
    "Callback error: parameter value missing", which does not contain
    "parameter missing". *)
Lemma callback_empty_query_not_parameter_missing :
  uri_query (callback_request (Some EmptyString)) = Some EmptyString /\
  ~ (exists resp, run_callback (callback_request (Some EmptyString)) s0 =
                    (Returned (Ok resp), s0) /\
       status resp = BAD_REQUEST /\ contains (body resp) "parameter missing" = true).
Proof.
  split; [reflexivity|].
  intros [resp [H [_ Hc]]]. vm_compute in H. injection H as <-.
  vm_compute in Hc. discriminate.
Qed.

Lemma callback_empty_query_value_missing_witness :
  run_callback (callback_request (Some EmptyString)) s0 =
    (Returned (Ok (bad_request "Callback error: parameter value missing")), s0).
Proof.
  apply (callback_empty_query_value_missing World model_lookup_builtin_type
           model_add_row model_new_session_token
           (callback_request (Some EmptyString)) s0).
  reflexivity.
Defined.

(** C1 fails: on a runtime where "user=alice" is inserted, minted and
    redirected, the query string "user=%" (the prefix and a non-empty
    remainder) makes the decoder panic: nothing is inserted, no token is
    minted and no response is produced. *)
Lemma callback_malformed_escape_panics :
  uri_query (callback_request (Some "user=%")) = Some ("user=" ++ "%") /\
  "%" <> EmptyString /\
  run_callback (callback_request (Some "user=%")) s0 = (Panicked, s0) /\
  ~ (exists resp, fst (run_callback (callback_request (Some "user=%")) s0) =
                    Returned (Ok resp)).
Proof.
  split; [reflexivity|]. split; [discriminate|].
  split; [vm_compute; reflexivity|].
  intros [resp H]. vm_compute in H. discriminate H.
Qed.

Lemma callback_inserts_mints_redirects_witness :
  exists resp,
    run_callback (callback_request (Some "user=al%69ce")) s0 =
      (Returned (Ok resp),
       mkSt World w_alice [EvAddRow oauth_user (user_row "alice") (Ok tt);
                           EvNewSessionToken "alice" (Ok "tok0")]) /\
    status resp = TEMPORARY_REDIRECT /\
    resp_headers resp =
      [(LOCATION, "http://localhost:3000/profile?chiselstrike_token=" ++ "tok0")].
Proof.
  apply (callback_inserts_mints_redirects World model_lookup_builtin_type
           model_add_row model_new_session_token
           (callback_request (Some "user=al%69ce")) s0 "al%69ce" "alice" oauth_user
           (snd (model_add_row oauth_user (user_row "alice") w0)) w_alice "tok0");
    [reflexivity | discriminate | vm_compute; reflexivity | reflexivity
    | reflexivity | reflexivity | vm_compute; reflexivity].
Defined.

Definition tok0_header : HeaderValue := list_byte_of_string "tok0".

Lemma extractor_resolves_or_anonymous_witness :
  fst (get_username World model_get_username (token_request tok0_header)
         (mkSt World w_alice [])) = Ok (Some "alice") /\
  fst (get_username World model_get_username (token_request tok0_header) s0) = Ok None /\
  get_username World model_get_username (path_request "/") s0 = (Ok None, s0).
Proof.
  split; [|split].
  - eapply (proj1 (proj2 (extractor_resolves_or_anonymous World model_get_username
                           (token_request tok0_header) (mkSt World w_alice []))));
      reflexivity.
  - eapply (proj2 (proj2 (extractor_resolves_or_anonymous World model_get_username
                           (token_request tok0_header) s0)));
      reflexivity.
  - apply (proj1 (extractor_resolves_or_anonymous World model_get_username
                    (path_request "/") s0)).
    reflexivity.
Defined.

(** The UTF-8 encoding of a non-ASCII letter: a valid header value that is
    not visible ASCII *)
Definition non_ascii_header : HeaderValue := [xc3; xa9].

Lemma extractor_fails_only_on_non_ascii_witness :
  headers_get "ChiselStrikeToken" (req_headers (token_request non_ascii_header)) =
    Some non_ascii_header /\
  get_username World model_get_username (token_request non_ascii_header) s0 =
    (Err (Anyhow "failed to convert header to a str"), s0).
Proof.
  split; [reflexivity|].
  apply (proj2 (extractor_fails_only_on_non_ascii World model_get_username
                  (token_request non_ascii_header) s0 non_ascii_header eq_refl)).
  reflexivity.
Defined.

Lemma lookup_user_strips_and_resolves_witness :
  lookup_user World model_get_username (path_request "/wrong") s0 =
    (Err (Anyhow "lookup_user on wrong URL"), s0) /\
  fst (lookup_user World model_get_username (path_request (USERPATH ++ "tok0"))
         (mkSt World w_alice [])) =
    Ok {| status := OK; resp_headers := []; body := "alice" |} /\
  fst (lookup_user World model_get_username (path_request (USERPATH ++ "nope")) s0) =
    Err (Anyhow "token not found").
Proof.
  split; [|split].
  - apply (proj1 (lookup_user_strips_and_resolves World model_get_username
                    (path_request "/wrong") s0)).
    reflexivity.
  - eapply (proj1 (proj2 (lookup_user_strips_and_resolves World model_get_username
                           (path_request (USERPATH ++ "tok0")) (mkSt World w_alice []))));
      reflexivity.
  - eapply (proj2 (proj2 (lookup_user_strips_and_resolves World model_get_username
                           (path_request (USERPATH ++ "nope")) s0)));
      reflexivity.
Defined.

Lemma userid_query_binds_username_witness :
  log World (snd (get_userid_from_db World model_lookup_builtin_type JsonObject
              empty_fetch_one json_row_get "alice' OR 1=1" s0)) =
    [EvFetchOne {| sql := "SELECT id FROM auth_user WHERE username=$1";
                   args := [SqlString "alice' OR 1=1"] |}].
Proof.
  apply (userid_query_binds_username World model_lookup_builtin_type JsonObject
           empty_fetch_one json_row_get oauth_user eq_refl "alice' OR 1=1" s0).
Defined.

Lemma callback_query_not_split_witness :
  (exists res ext,
     log World (snd (run_callback (callback_request (Some "user=a&other=b")) s0)) =
       EvAddRow oauth_user (user_row "a&other=b") res :: ext) /\
  (exists resp, run_callback (callback_request (Some "state=x&user=a")) s0 =
                  (Returned (Ok resp), s0) /\
     status resp = BAD_REQUEST).
Proof.
  destruct (callback_query_not_split World model_lookup_builtin_type model_add_row
              model_new_session_token s0 oauth_user eq_refl) as [H1 H2].
  split.
  - apply (H1 (callback_request (Some "user=a&other=b")) "a&other=b" "a&other=b");
      [reflexivity | discriminate | vm_compute; reflexivity].
  - apply (H2 (callback_request (Some "state=x&user=a")) "state=x&user=a");
      reflexivity.
Defined.

(** * The package build script (packages/build.rs)

    [run_in] checks the directory, runs a command in it and asserts that
    it succeeded; [main] builds the two npm packages in order.  A failed
    [assert!] is a panic, which ends the build script.  The file system
    and the processes are parameters; each spawn attempt is recorded. *)
Module Build.

(** The failed assertion of [run_in] *)
Inductive Panic : Type :=
| DirMissing (dir : string)
| NotADirectory (dir : string)
| SpawnFailed (cmd : string) (dir : string)
| CommandFailed.

Definition Step : Type := (string * list string * string)%type.

Section Process.

Variable Env : Type.
(** [Path::exists] and [Path::is_dir] *)
Variable path_exists : string -> Env -> bool.
Variable path_is_dir : string -> Env -> bool.
(** [Command::status]: [None] when the process could not be spawned,
    otherwise whether it exited successfully *)
Variable command_status : string -> list string -> string -> Env -> option bool * Env.

(** The environment, the commands started so far and what [status()]
    answered for each of them *)
Record PState : Type :=
  mkPState { env : Env; attempted : list Step; exits : list (option bool) }.

(** [run_in]; [None] is a normal return *)
Definition run_in (cmd : string) (args : list string) (dir : string) (s : PState)
  : option Panic * PState :=
  if negb (path_exists dir (env s)) then (Some (DirMissing dir), s)
  else if negb (path_is_dir dir (env s)) then (Some (NotADirectory dir), s)
  else
    let (status, e') := command_status cmd args dir (env s) in
    let s' := mkPState e' (attempted s ++ [(cmd, args, dir)]) (exits s ++ [status]) in
    match status with
    | None => (Some (SpawnFailed cmd dir), s')
    | Some true => (None, s')
    | Some false => (Some CommandFailed, s')
    end.


Definition create_app := "./create-chiselstrike-app".
Definition api := "./chiselstrike-api".





Lemma run_in_cases cmd args dir s :
  (exists p, run_in cmd args dir s = (Some p, s)) \/
  (exists b e' r,
     run_in cmd args dir s =
       (r, mkPState e' (attempted s ++ [(cmd, args, dir)]) (exits s ++ [b])) /\
     (r = None <-> b = Some true)).
Proof.
  unfold run_in.
  destruct (path_exists dir (env s)); simpl; [|left; eexists; reflexivity].
  destruct (path_is_dir dir (env s)); simpl; [|left; eexists; reflexivity].
  right. destruct (command_status cmd args dir (env s)) as [b e'].
  exists b, e'. destruct b as [[]|]; eexists; (split; [reflexivity|]);
    split; intros; (reflexivity || discriminate).
Qed.

Lemma run_in_log cmd args dir s r s' :
  run_in cmd args dir s = (r, s') ->
  (r = None /\ attempted s' = (attempted s ++ [(cmd, args, dir)])%list) \/
  (r <> None /\ (attempted s' = attempted s \/
                 attempted s' = (attempted s ++ [(cmd, args, dir)])%list)).
Proof.
  intros H. destruct (run_in_cases cmd args dir s) as [[p Hp]|[b [e' [r' [Hr _]]]]];
    rewrite H in *; inversion Hp + inversion Hr; subst.
  - right. split; [discriminate|left; reflexivity].
  - destruct r' as [p|]; [right; split; [discriminate|right; reflexivity]|].
    left. split; reflexivity.
Qed.


(** [run_in] never starts a command in a directory that is missing or is
    not a directory (it panics and changes nothing); otherwise it starts
    the command exactly once there, and returns normally exactly when the
    command was spawned and exited successfully. *)
Theorem run_in_checks_then_runs (cmd : string) (args : list string) (dir : string)
    (s : PState) :
  ((path_exists dir (env s) = false \/ path_is_dir dir (env s) = false) ->
   exists p, run_in cmd args dir s = (Some p, s)) /\
  (path_exists dir (env s) = true -> path_is_dir dir (env s) = true ->
   attempted (snd (run_in cmd args dir s)) = (attempted s ++ [(cmd, args, dir)])%list /\
   (fst (run_in cmd args dir s) = None <->
    fst (command_status cmd args dir (env s)) = Some true)).
Proof.
  unfold run_in. split.
  - intros [H|H]; rewrite H; simpl; [eexists; reflexivity|].
    destruct (path_exists dir (env s)); eexists; reflexivity.
  - intros He Hd. rewrite He, Hd. simpl.
    destruct (command_status cmd args dir (env s)) as [[[]|] e']; simpl;
      repeat split; try reflexivity; discriminate.
Qed.


End Process.

(** A concrete file system: the existing directories, every command
    exits successfully *)
Definition dirs_env := list string.
Definition dir_exists (d : string) (e : dirs_env) : bool := existsb (String.eqb d) e.
Definition npm_ok (cmd : string) (args : list string) (dir : string) (e : dirs_env)
  : option bool * dirs_env := (Some true, e).

Lemma run_in_checks_then_runs_witness :
  run_in dirs_env dir_exists dir_exists npm_ok "npm" ["install"] api
         (mkPState dirs_env [create_app] [] []) =
    (Some (DirMissing api), mkPState dirs_env [create_app] [] []) /\
  attempted dirs_env (snd (run_in dirs_env dir_exists dir_exists npm_ok "npm" ["install"]
                         create_app (mkPState dirs_env [create_app] [] []))) =
    [("npm", ["install"], create_app)].
Proof.
  destruct (run_in_checks_then_runs dirs_env dir_exists dir_exists npm_ok "npm" ["install"]
              api (mkPState dirs_env [create_app] [] [])) as [Hmiss _].
  destruct (run_in_checks_then_runs dirs_env dir_exists dir_exists npm_ok "npm" ["install"]
              create_app (mkPState dirs_env [create_app] [] [])) as [_ Hrun].
  split.
  - destruct (Hmiss (or_introl eq_refl)) as [p Hp]. rewrite Hp. vm_compute in Hp.
    injection Hp as <-. reflexivity.
  - apply (proj1 (Hrun eq_refl eq_refl)).
Defined.

End Build.

(** ** The further properties on the concrete runtime *)

Lemma callback_ok_answers_witness :
  exists resp,
    run_callback (callback_request (Some "user=alice")) s0 =
      (Returned (Ok resp),
       mkSt World w_alice [EvAddRow oauth_user (user_row "alice") (Ok tt);
                           EvNewSessionToken "alice" (Ok "tok0")]) /\
    ((status resp = BAD_REQUEST /\
      mkSt World w_alice [EvAddRow oauth_user (user_row "alice") (Ok tt);
                          EvNewSessionToken "alice" (Ok "tok0")] = s0) \/
     (exists t u tok,
        status resp = TEMPORARY_REDIRECT /\
        resp_headers resp = [(LOCATION, PROFILE_URL ++ tok)] /\
        log World (mkSt World w_alice [EvAddRow oauth_user (user_row "alice") (Ok tt);
                                       EvNewSessionToken "alice" (Ok "tok0")]) =
          [EvAddRow t (user_row u) (Ok tt); EvNewSessionToken u (Ok tok)])).
Proof.
  assert (H : run_callback (callback_request (Some "user=alice")) s0 =
     (Returned (Ok (match redirect (PROFILE_URL ++ "tok0") with
                    | Some r => r
                    | None => bad_request EmptyString
                    end)),
      mkSt World w_alice [EvAddRow oauth_user (user_row "alice") (Ok tt);
                          EvNewSessionToken "alice" (Ok "tok0")]))
    by (vm_compute; reflexivity).
  eexists. split; [exact H|].
  apply (callback_ok_answers World model_lookup_builtin_type model_add_row
           model_new_session_token (callback_request (Some "user=alice")) s0).
  exact H.
Defined.

(** A registry where the user type name denotes a scalar type *)
Definition scalar_lookup (_ : string) : Result Ty := Ok TyString.

Lemma callback_errors_internal_witness :
  (Anyhow ("Internal error: type " ++ OAUTHUSER_TYPE_NAME ++ " not found") =
     Anyhow ("Internal error: type " ++ OAUTHUSER_TYPE_NAME ++ " not found") /\ s0 = s0) \/
  (exists t u, log World s0 = (log World s0 ++
      [EvAddRow t (user_row u)
         (Err (Anyhow ("Internal error: type " ++ OAUTHUSER_TYPE_NAME ++ " not found")))])%list) \/
  (exists t u, log World s0 = (log World s0 ++ [EvAddRow t (user_row u) (Ok tt);
      EvNewSessionToken u
        (Err (Anyhow ("Internal error: type " ++ OAUTHUSER_TYPE_NAME ++ " not found")))])%list).
Proof.
  apply (callback_errors_internal World scalar_lookup model_add_row
           model_new_session_token (callback_request (Some "user=bob")) s0).
  vm_compute. reflexivity.
Defined.

Lemma callback_without_user_type_witness :
  handle_callback World scalar_lookup model_add_row model_new_session_token
    (callback_request (Some "user=bob")) s0 =
    (Returned (Err (Anyhow ("Internal error: type " ++ OAUTHUSER_TYPE_NAME ++ " not found"))), s0).
Proof.
  apply (callback_without_user_type World scalar_lookup model_add_row
           model_new_session_token (callback_request (Some "user=bob")) s0 "bob");
    [reflexivity | discriminate | vm_compute; discriminate | intros t H; discriminate H].
Defined.

Lemma lookup_user_prefix_paths_witness :
  exists tok,
    uri_path (path_request (USERPATH ++ "tok0")) = USERPATH ++ tok /\
    lookup_user World model_get_username (path_request (USERPATH ++ "tok0"))
      (mkSt World w_alice []) =
      (match fst (model_get_username tok w_alice) with
       | Ok u => Ok {| status := OK; resp_headers := []; body := u |}
       | Err e => Err e
       end,
       mkSt World (snd (model_get_username tok w_alice))
            ([EvGetUsername tok (fst (model_get_username tok w_alice))])).
Proof.
  apply (lookup_user_prefix_paths World model_get_username
           (path_request (USERPATH ++ "tok0")) (mkSt World w_alice [])).
  reflexivity.
Defined.

Lemma extractor_header_round_trip_witness :
  get_username World model_get_username (token_request tok0_header) (mkSt World w_alice []) =
    (Ok (Some "alice"), mkSt World w_alice [EvGetUsername "tok0" (Ok "alice")]).
Proof.
  apply (extractor_header_round_trip World model_get_username (token_request tok0_header)
           (mkSt World w_alice []) "tok0"); reflexivity.
Defined.

Lemma decode_keeps_plain_text_witness :
  decode "a+b&c=d" = Some "a+b&c=d".
Proof. apply decode_keeps_plain_text. vm_compute. reflexivity. Defined.
